(** * gangbot: the bidding system of [gangbot.py]

    A shallow embedding of the Flask application: the two SQLAlchemy models
    ([Task], [Bid]), the database session as explicit state, the JSON
    replies of the routes, Python's [min] with a key, and the handlers
    [create_task], [submit_bid], [evaluate_bids] and [close_expired_tasks].

    Modelling conventions.
    - A [datetime] is a point of a discrete time line (microseconds), a [Z].
      SQLite keeps a DateTime column as fixed-width text whose order is the
      chronological one, so [Task.deadline < now] is [Z.ltb].
    - [Bid.price] is a Float column; a stored float is a rational number and
      floats compare as the rationals they denote, so a price is a [Q]
      (a NaN never reaches the table: SQLite binds it as NULL and the column
      is not nullable).  [Bid.completion_time] is an Integer column, a [Z].
    - A table is the list of its rows in rowid order, which is the order in
      which a query without ORDER BY scans them; an inserted row gets the
      next rowid and goes last.
    - No relationship and no ON DELETE rule is declared between [Bid] and
      [Task], and SQLite does not enforce foreign keys unless asked to:
      deleting a task row touches the task table only.
    - [create_task] receives the deadline already parsed by
      [datetime.strptime]; a string that does not parse raises before the
      session is used. *)

From Stdlib Require Import ZArith QArith List String Bool Lia.
From Stdlib Require Import DecimalString.
From Stdlib Require Import Sorted.
Import ListNotations.

Open Scope string_scope.
Open Scope list_scope.
Open Scope Z_scope.

(** ** Data model *)

Definition datetime := Z.

Module Task.
Record t : Type := mk
  { id : Z
  ; title : string
  ; description : string
  ; deadline : datetime
  ; criteria : string
  ; created_at : datetime }.
End Task.

Module Bid.
Record t : Type := mk
  { id : Z
  ; task_id : Z
  ; bidder : string
  ; price : Q
  ; completion_time : Z
  ; submitted_at : datetime }.
End Bid.

(** The database: one table per model. *)
Record db : Type := mkdb
  { task_table : list Task.t
  ; bid_table : list Bid.t }.

(** The rowid SQLite gives to a row inserted in an INTEGER PRIMARY KEY
    table: 1 in an empty table, else one more than the largest one. *)
Definition next_rowid (ids : list Z) : Z :=
  match ids with
  | [] => 1
  | i :: rest => fold_left Z.max rest i + 1
  end.

(** ** JSON replies *)

#[warnings="-register-all"]
Inductive json : Type :=
| JStr (s : string)
| JInt (n : Z)
| JFloat (q : Q)
| JDate (d : datetime)
| JObj (fields : list (string * json)).

(** What a view function hands back to Flask: a body with a status code,
    or an exception that escapes the handler. *)
Inductive response : Type :=
| Reply (body : json) (status : Z)
| Raised (exc : string).

Definition status_of (r : response) : option Z :=
  match r with
  | Reply _ s => Some s
  | Raised _ => None
  end.

Definition error (msg : string) : json := JObj [("error", JStr msg)].

(** ** The session: state passing over [db] *)

Definition session (A : Type) : Type := db -> A * db.

Definition ret {A : Type} (a : A) : session A := fun st => (a, st).

Definition bind {A B : Type} (m : session A) (k : A -> session B) : session B :=
  fun st => let (a, st') := m st in k a st'.

Notation "x <- m ;; k" := (bind m (fun x => k))
  (at level 61, m at next level, right associativity).

(** [Task.query.get(task_id)] *)
Definition query_get_task (task_id : Z) : session (option Task.t) :=
  fun st => (find (fun t => Task.id t =? task_id) (task_table st), st).

(** [Bid.query.filter_by(task_id=task_id).all()] *)
Definition query_bids_by_task (task_id : Z) : session (list Bid.t) :=
  fun st => (filter (fun b => Bid.task_id b =? task_id) (bid_table st), st).

(** [Task.query.filter(Task.deadline < now).all()] *)
Definition query_tasks_before (now : datetime) : session (list Task.t) :=
  fun st => (filter (fun t => Task.deadline t <? now) (task_table st), st).

(** [db.session.add(task); db.session.commit()]: the row is inserted with
    the next rowid and the column default [created_at = utcnow()]. *)
Definition session_add_task (title description : string) (deadline : datetime)
    (criteria : string) (now : datetime) : session Task.t :=
  fun st =>
    let task := Task.mk (next_rowid (map Task.id (task_table st)))
                        title description deadline criteria now in
    (task, mkdb (task_table st ++ [task]) (bid_table st)).

Definition session_add_bid (task_id : Z) (bidder : string) (price : Q)
    (completion_time : Z) (now : datetime) : session Bid.t :=
  fun st =>
    let bid := Bid.mk (next_rowid (map Bid.id (bid_table st)))
                      task_id bidder price completion_time now in
    (bid, mkdb (task_table st) (bid_table st ++ [bid])).

(** [db.session.delete(task)], flushed by the commit that follows the loop:
    DELETE FROM task WHERE task.id = ?. *)
Definition session_delete_task (task : Task.t) : session unit :=
  fun st =>
    (tt, mkdb (filter (fun r => negb (Task.id r =? Task.id task)) (task_table st))
              (bid_table st)).

(** ** Python's [min(iterable, key=...)] *)

Section PyMin.
Context {A K : Type}.
Variable ltb : K -> K -> bool.
Variable key : A -> K.

(** One turn of the loop of [min]: the item replaces the current one only
    when its key is strictly smaller. *)
Definition min_step (m y : A) : A :=
  if ltb (key y) (key m) then y else m.

(** [None] stands for the ValueError raised on an empty iterable. *)
Definition py_min (l : list A) : option A :=
  match l with
  | [] => None
  | x :: xs => Some (fold_left min_step xs x)
  end.
End PyMin.

Definition Qltb (a b : Q) : bool :=
  Qnum a * Zpos (Qden b) <? Qnum b * Zpos (Qden a).

(** ** The routes *)

Definition find_task (task_id : Z) : session (option Task.t) :=
  query_get_task task_id.

(** The decoded body of POST /tasks. *)
Record task_data : Type := mk_task_data
  { data_title : string
  ; data_description : string
  ; data_deadline : datetime
  ; data_criteria : string }.

Definition task_created (task : Task.t) : json :=
  JObj [("message", JStr "Task created successfully!");
        ("task", JObj [("id", JInt (Task.id task));
                       ("title", JStr (Task.title task));
                       ("description", JStr (Task.description task));
                       ("deadline", JDate (Task.deadline task));
                       ("criteria", JStr (Task.criteria task))])].

Definition create_task (data : task_data) (now : datetime) : session response :=
  let deadline := data_deadline data in
  task <- session_add_task (data_title data) (data_description data)
                           deadline (data_criteria data) now ;;
  ret (Reply (task_created task) 201).

(** The decoded body of POST /tasks/<task_id>/bids. *)
Record bid_data : Type := mk_bid_data
  { data_bidder : string
  ; data_price : Q
  ; data_completion_time : Z }.

Definition bid_submitted (bid : Bid.t) : json :=
  JObj [("message", JStr "Bid submitted successfully!");
        ("bid", JObj [("id", JInt (Bid.id bid));
                      ("task_id", JInt (Bid.task_id bid));
                      ("bidder", JStr (Bid.bidder bid));
                      ("price", JFloat (Bid.price bid));
                      ("completion_time", JInt (Bid.completion_time bid))])].

Definition submit_bid (task_id : Z) (data : bid_data) (now : datetime)
    : session response :=
  task <- find_task task_id ;;
  match task with
  | None => ret (Reply (error "Task not found") 404)
  | Some task =>
      bid <- session_add_bid (Task.id task) (data_bidder data) (data_price data)
                             (data_completion_time data) now ;;
      ret (Reply (bid_submitted bid) 201)
  end.

Definition bid_evaluated (winner : Bid.t) : json :=
  JObj [("message", JStr "Bid evaluated successfully!");
        ("winner", JObj [("id", JInt (Bid.id winner));
                         ("bidder", JStr (Bid.bidder winner));
                         ("price", JFloat (Bid.price winner));
                         ("completion_time", JInt (Bid.completion_time winner))])].

(** The reply once [min] has run; a ValueError would escape the handler. *)
Definition reply_winner (winner : option Bid.t) : response :=
  match winner with
  | Some winner => Reply (bid_evaluated winner) 200
  | None => Raised "ValueError"
  end.

Definition evaluate_bids (task_id : Z) : session response :=
  task <- find_task task_id ;;
  match task with
  | None => ret (Reply (error "Task not found") 404)
  | Some task =>
      task_bids <- query_bids_by_task task_id ;;
      match task_bids with
      | [] => ret (Reply (error "No bids found for this task") 404)
      | _ :: _ =>
          let criteria := Task.criteria task in
          if criteria =? "lowest price" then
            ret (reply_winner (py_min Qltb Bid.price task_bids))
          else if criteria =? "fastest completion" then
            ret (reply_winner (py_min Z.ltb Bid.completion_time task_bids))
          else
            ret (Reply (error "Unknown evaluation criteria") 400)
      end
  end%string.

(** [str(n)] for a length. *)
Definition str_of_nat (n : nat) : string :=
  NilEmpty.string_of_uint (Nat.to_uint n).

(** The sweep; its value is the line it prints. *)
Definition close_expired_tasks (now : datetime) : session string :=
  expired_tasks <- query_tasks_before now ;;
  _ <- fold_left (fun (acc : session unit) task => _ <- acc ;; session_delete_task task)
                 expired_tasks (ret tt) ;;
  ret ("Closed " ++ str_of_nat (List.length expired_tasks) ++ " expired tasks.")%string.

(** The bids a query for [task_id] returns, and the task it finds. *)
Definition bids_of (st : db) (task_id : Z) : list Bid.t :=
  fst (query_bids_by_task task_id st).

Definition task_of (st : db) (task_id : Z) : option Task.t :=
  fst (find_task task_id st).

(** The primary key of the task table: no two rows share an id. *)
Definition pk_unique (st : db) : Prop :=
  NoDup (map Task.id (task_table st)).

(** ** Derived notions used in the statements *)

(** The reply [evaluate_bids] computes from the task and its bids, the
    database being handed back as it came. *)
Definition evaluation (task : option Task.t) (task_bids : list Bid.t) : response :=
  match task with
  | None => Reply (error "Task not found") 404
  | Some task =>
      match task_bids with
      | [] => Reply (error "No bids found for this task") 404
      | _ :: _ =>
          if (Task.criteria task =? "lowest price")%string then
            reply_winner (py_min Qltb Bid.price task_bids)
          else if (Task.criteria task =? "fastest completion")%string then
            reply_winner (py_min Z.ltb Bid.completion_time task_bids)
          else Reply (error "Unknown evaluation criteria") 400
      end
  end.

(** A store for the examples: the fence of the scenarios under the
    lowest-price rule, a second task under the fastest-completion rule with
    two bids of equal duration, a task without bids and a task whose
    criteria is spelled with an underscore. *)
Definition fence : Task.t :=
  Task.mk 1 "Paint fence" "Two coats" 5000 "lowest price" 1000.
Definition roof : Task.t :=
  Task.mk 2 "Fix roof" "Replace tiles" 9000 "fastest completion" 1500.
Definition lawn : Task.t :=
  Task.mk 3 "Mow lawn" "Front garden" 9000 "lowest price" 1500.
Definition shed : Task.t :=
  Task.mk 4 "Build shed" "Wooden" 9000 "lowest_price" 1600.

Definition bid_a : Bid.t := Bid.mk 1 1 "A" (50 # 1) 3 2000.
Definition bid_b : Bid.t := Bid.mk 2 1 "B" (40 # 1) 5 2100.
Definition bid_c : Bid.t := Bid.mk 3 2 "C" (100 # 1) 4 2200.
Definition bid_d : Bid.t := Bid.mk 4 2 "D" (90 # 1) 4 2300.
Definition bid_e : Bid.t := Bid.mk 5 1 "E" (80 # 2) 7 2400.
Definition bid_f : Bid.t := Bid.mk 6 4 "F" (10 # 1) 1 2500.

Definition market : db :=
  mkdb [fence; roof; lawn; shed] [bid_a; bid_b; bid_c; bid_d; bid_e; bid_f].

(** [w] is the first item of [l] whose key is least: the items before it
    are strictly above, the items after it are not below. *)
Definition first_least {K : Type} (lt le : K -> K -> Prop) (key : Bid.t -> K)
    (l : list Bid.t) (w : Bid.t) : Prop :=
  exists l1 l2,
    l = l1 ++ w :: l2 /\
    (forall b, In b l1 -> lt (key w) (key b)) /\
    (forall b, In b l2 -> le (key w) (key b)).

(** The market once a bid has come in for the lawn: the fence and the roof
    keep their bid sequences. *)
Definition market_later : db :=
  snd (submit_bid 3 (mk_bid_data "G" (15 # 1) 2) 2600 market).

(** The state and the printed line of one sweep at clock reading [now]. *)
Definition swept (now : datetime) (st : db) : db :=
  snd (close_expired_tasks now st).

Definition printed (now : datetime) (st : db) : string :=
  fst (close_expired_tasks now st).

(** A bid is an orphan when no row of the task table carries its task id. *)
Definition orphan (st : db) (b : Bid.t) : Prop :=
  task_of st (Bid.task_id b) = None.

Definition has_id (task : Task.t) (r : Task.t) : bool :=
  Task.id r =? Task.id task.

(** The line the sweep prints for [n] tasks found expired. *)
Definition closed_line (n : nat) : string :=
  ("Closed " ++ str_of_nat n ++ " expired tasks.")%string.

(** The row [submit_bid] inserts for a found task. *)
Definition new_bid (st : db) (task : Task.t) (data : bid_data) (now : datetime)
    : Bid.t :=
  Bid.mk (next_rowid (map Bid.id (bid_table st))) (Task.id task)
         (data_bidder data) (data_price data) (data_completion_time data) now.

(** The row [create_task] inserts. *)
Definition new_task (st : db) (data : task_data) (now : datetime) : Task.t :=
  Task.mk (next_rowid (map Task.id (task_table st)))
          (data_title data) (data_description data) (data_deadline data)
          (data_criteria data) now.

(** The requests the application serves, with the clock reading of those
    that look at the time, and the sweep the scheduler fires. *)
Inductive request : Type :=
| CreateTask (data : task_data) (now : datetime)
| SubmitBid (task_id : Z) (data : bid_data) (now : datetime)
| EvaluateBids (task_id : Z)
| Sweep (now : datetime).

Definition handle (st : db) (r : request) : db :=
  match r with
  | CreateTask data now => snd (create_task data now st)
  | SubmitBid task_id data now => snd (submit_bid task_id data now st)
  | EvaluateBids task_id => snd (evaluate_bids task_id st)
  | Sweep now => snd (close_expired_tasks now st)
  end.

Definition run (history : list request) (st : db) : db :=
  fold_left handle history st.

Definition empty_db : db := mkdb [] [].

(** The requests that build [market] from the empty database. *)
Definition market_history : list request :=
  [ CreateTask (mk_task_data "Paint fence" "Two coats" 5000 "lowest price") 1000
  ; CreateTask (mk_task_data "Fix roof" "Replace tiles" 9000 "fastest completion") 1500
  ; CreateTask (mk_task_data "Mow lawn" "Front garden" 9000 "lowest price") 1500
  ; CreateTask (mk_task_data "Build shed" "Wooden" 9000 "lowest_price") 1600
  ; SubmitBid 1 (mk_bid_data "A" (50 # 1) 3) 2000
  ; SubmitBid 1 (mk_bid_data "B" (40 # 1) 5) 2100
  ; EvaluateBids 1
  ; SubmitBid 2 (mk_bid_data "C" (100 # 1) 4) 2200
  ; SubmitBid 2 (mk_bid_data "D" (90 # 1) 4) 2300
  ; SubmitBid 1 (mk_bid_data "E" (80 # 2) 7) 2400
  ; SubmitBid 4 (mk_bid_data "F" (10 # 1) 1) 2500
  ; Sweep 2600 ].

(** ** The listing route and the notions of the later sections *)

(** [Task.query.all()] *)
Definition query_all_tasks : session (list Task.t) :=
  fun st => (task_table st, st).

(** The entry of one task in the listing; unlike the reply of
    [create_task] it carries [created_at]. *)
Definition task_listed (task : Task.t) : json :=
  JObj [("id", JInt (Task.id task));
        ("title", JStr (Task.title task));
        ("description", JStr (Task.description task));
        ("deadline", JDate (Task.deadline task));
        ("criteria", JStr (Task.criteria task));
        ("created_at", JDate (Task.created_at task))].

(** GET /tasks. The value is the list handed to [jsonify], which answers
    it with the default status 200. *)
Definition get_tasks : session (list json) :=
  tasks_list <- query_all_tasks ;;
  let tasks := map task_listed tasks_list in
  ret tasks.

Definition listed (st : db) : list json := fst (get_tasks st).


(** Ids as SQLite hands them out: strictly increasing down the table and
    at least 1. *)
Definition rowid_order (ids : list Z) : Prop :=
  StronglySorted Z.lt ids /\ Forall (fun i => 1 <= i) ids.

Definition tables_in_order (st : db) : Prop :=
  rowid_order (map Task.id (task_table st)) /\
  rowid_order (map Bid.id (bid_table st)).

(** The market after the sweep of 9500, which finds every task due. *)
Definition market_cleared : db := swept 9500 market.

(** The clock readings of a history, in the order they were taken. *)
Definition clock_readings (history : list request) : list datetime :=
  flat_map (fun r =>
              match r with
              | CreateTask _ now => [now]
              | SubmitBid _ _ now => [now]
              | EvaluateBids _ => []
              | Sweep now => [now]
              end) history.

(** The time stamps of the rows, down each table. *)
Definition stamps (st : db) : list datetime * list datetime :=
  (map Task.created_at (task_table st), map Bid.submitted_at (bid_table st)).

(** The stamps of both tables are in order and none is after [bound]. *)
Definition stamped_until (bound : list datetime) (st : db) : Prop :=
  StronglySorted Z.le (fst (stamps st)) /\
  StronglySorted Z.le (snd (stamps st)) /\
  forall s c, In s (fst (stamps st) ++ snd (stamps st)) -> In c bound -> s <= c.

(** * Facts about [min] *)

Section PyMinFacts.
Context {A K : Type}.
Variable ltb : K -> K -> bool.
Variable key : A -> K.

(** The keys are totally preordered by "not strictly smaller". *)
Hypothesis ltb_asym : forall a b, ltb a b = true -> ltb b a = false.
Hypothesis geb_trans :
  forall a b c, ltb b a = false -> ltb c b = false -> ltb c a = false.

Lemma ltb_irrefl : forall a, ltb a a = false.
Proof.
  intros a. destruct (ltb a a) eqn:E; [| reflexivity].
  rewrite (ltb_asym _ _ E) in E. discriminate.
Qed.

Lemma ltb_geb_trans :
  forall a b c, ltb a b = true -> ltb c b = false -> ltb a c = true.
Proof.
  intros a b c Hab Hbc. destruct (ltb a c) eqn:E; [reflexivity |].
  rewrite (geb_trans _ _ _ Hbc E) in Hab. discriminate.
Qed.

Lemma ltb_trans :
  forall a b c, ltb a b = true -> ltb b c = true -> ltb a c = true.
Proof.
  intros a b c Hab Hbc.
  apply (ltb_geb_trans a b c Hab). apply ltb_asym, Hbc.
Qed.

(** The loop of [min] stops on the first item of smallest key: everything
    before it has a strictly larger key, nothing after it a smaller one. *)
Lemma fold_min_first :
  forall xs m, exists l1 w l2,
    m :: xs = l1 ++ w :: l2 /\
    fold_left (min_step ltb key) xs m = w /\
    (forall b, In b l1 -> ltb (key w) (key b) = true) /\
    (forall b, In b l2 -> ltb (key b) (key w) = false).
Proof.
  induction xs as [| y ys IH] using rev_ind; intros m.
  - exists [], m, []. simpl. repeat split; intros b [].
  - destruct (IH m) as (l1 & w & l2 & Hsplit & Hw & Hbefore & Hafter).
    rewrite fold_left_app. simpl. rewrite Hw. unfold min_step.
    destruct (ltb (key y) (key w)) eqn:Hy.
    + exists (l1 ++ w :: l2), y, []. repeat split.
      * rewrite app_comm_cons, Hsplit. reflexivity.
      * intros b Hb. apply in_app_or in Hb. destruct Hb as [Hb | [Hb | Hb]].
        -- apply (ltb_trans _ _ _ Hy). apply Hbefore, Hb.
        -- subst b. exact Hy.
        -- apply (ltb_geb_trans _ _ _ Hy). apply Hafter, Hb.
      * intros b [].
    + exists l1, w, (l2 ++ [y]). repeat split.
      * rewrite app_comm_cons, Hsplit, <- app_assoc. reflexivity.
      * exact Hbefore.
      * intros b Hb. apply in_app_or in Hb. destruct Hb as [Hb | [Hb | []]].
        -- apply Hafter, Hb.
        -- subst b. exact Hy.
Qed.

Lemma py_min_first :
  forall l, l <> [] -> exists l1 w l2,
    l = l1 ++ w :: l2 /\
    py_min ltb key l = Some w /\
    (forall b, In b l1 -> ltb (key w) (key b) = true) /\
    (forall b, In b l2 -> ltb (key b) (key w) = false).
Proof.
  intros [| x xs] Hne; [contradiction |].
  destruct (fold_min_first xs x) as (l1 & w & l2 & Hsplit & Hw & H1 & H2).
  exists l1, w, l2. simpl. rewrite Hw. auto.
Qed.

Lemma py_min_least :
  forall l, l <> [] -> exists w,
    py_min ltb key l = Some w /\ In w l /\
    (forall b, In b l -> ltb (key b) (key w) = false).
Proof.
  intros l Hne.
  destruct (py_min_first l Hne) as (l1 & w & l2 & Hsplit & Hw & H1 & H2).
  exists w. split; [exact Hw |]. subst l. split.
  - apply in_or_app. right. left. reflexivity.
  - intros b Hb. apply in_app_or in Hb. destruct Hb as [Hb | [Hb | Hb]].
    + apply ltb_asym, H1, Hb.
    + subst b. apply ltb_irrefl.
    + apply H2, Hb.
Qed.
End PyMinFacts.

Lemma Qltb_lt : forall a b : Q, Qltb a b = true <-> (a < b)%Q.
Proof. intros a b. unfold Qltb, Qlt. apply Z.ltb_lt. Qed.

Lemma Qltb_ge : forall a b : Q, Qltb a b = false <-> (b <= a)%Q.
Proof. intros a b. unfold Qltb, Qle. rewrite Z.ltb_ge. reflexivity. Qed.

Lemma Qltb_asym : forall a b : Q, Qltb a b = true -> Qltb b a = false.
Proof.
  intros a b H. apply Qltb_ge. apply Qlt_le_weak. apply Qltb_lt, H.
Qed.

Lemma Qgeb_trans :
  forall a b c : Q, Qltb b a = false -> Qltb c b = false -> Qltb c a = false.
Proof.
  intros a b c H1 H2. apply Qltb_ge. apply Qltb_ge in H1, H2.
  apply (Qle_trans _ b); assumption.
Qed.

Lemma Zltb_asym : forall a b : Z, (a <? b) = true -> (b <? a) = false.
Proof. intros a b H. apply Z.ltb_lt in H. apply Z.ltb_ge. lia. Qed.

Lemma Zgeb_trans :
  forall a b c : Z, (b <? a) = false -> (c <? b) = false -> (c <? a) = false.
Proof.
  intros a b c H1 H2. apply Z.ltb_ge in H1, H2. apply Z.ltb_ge. lia.
Qed.

(** * Evaluation *)

Lemma evaluate_bids_unfold :
  forall task_id st,
    evaluate_bids task_id st =
    (evaluation (task_of st task_id) (bids_of st task_id), st).
Proof.
  intros task_id st.
  unfold evaluate_bids, evaluation, task_of, bids_of, bind, find_task,
    query_get_task, query_bids_by_task, ret. simpl.
  destruct (find _ (task_table st)) as [task |]; [| reflexivity].
  destruct (filter _ (bid_table st)) as [| b rest]; [reflexivity |].
  destruct (Task.criteria task =? "lowest price")%string; [reflexivity |].
  destruct (Task.criteria task =? "fastest completion")%string; reflexivity.
Qed.

Lemma evaluation_lowest_price :
  forall task task_bids,
    Task.criteria task = "lowest price" -> task_bids <> [] ->
    evaluation (Some task) task_bids = reply_winner (py_min Qltb Bid.price task_bids).
Proof.
  intros task [| b rest] Hc Hne; [contradiction |].
  unfold evaluation. rewrite Hc. reflexivity.
Qed.

Lemma evaluation_fastest_completion :
  forall task task_bids,
    Task.criteria task = "fastest completion" -> task_bids <> [] ->
    evaluation (Some task) task_bids =
    reply_winner (py_min Z.ltb Bid.completion_time task_bids).
Proof.
  intros task [| b rest] Hc Hne; [contradiction |].
  unfold evaluation. rewrite Hc. reflexivity.
Qed.

Example market_fence_winner :
  fst (evaluate_bids 1 market) = Reply (bid_evaluated bid_b) 200.
Proof. reflexivity. Qed.

Example market_roof_winner :
  fst (evaluate_bids 2 market) = Reply (bid_evaluated bid_c) 200.
Proof. reflexivity. Qed.

(** C1. For a task under the lowest-price criterion with a non-empty
    sequence of bids, [evaluate_bids] answers with one of those bids whose
    price is the minimum of their prices; under the fastest-completion
    criterion, with one whose completion time is the minimum of theirs. *)
Theorem evaluate_bids_minimum :
  forall st task_id task,
    task_of st task_id = Some task ->
    bids_of st task_id <> [] ->
    (Task.criteria task = "lowest price" ->
     exists w,
       fst (evaluate_bids task_id st) = Reply (bid_evaluated w) 200 /\
       In w (bids_of st task_id) /\
       forall b, In b (bids_of st task_id) -> (Bid.price w <= Bid.price b)%Q) /\
    (Task.criteria task = "fastest completion" ->
     exists w,
       fst (evaluate_bids task_id st) = Reply (bid_evaluated w) 200 /\
       In w (bids_of st task_id) /\
       forall b, In b (bids_of st task_id) ->
                 Bid.completion_time w <= Bid.completion_time b).
Proof.
  intros st task_id task Htask Hne.
  rewrite evaluate_bids_unfold, Htask. cbn [fst]. split; intros Hc.
  - rewrite (evaluation_lowest_price _ _ Hc Hne).
    destruct (py_min_least Qltb Bid.price Qltb_asym Qgeb_trans _ Hne)
      as (w & Hw & Hin & Hleast).
    exists w. rewrite Hw. repeat split; [exact Hin |].
    intros b Hb. apply Qltb_ge, Hleast, Hb.
  - rewrite (evaluation_fastest_completion _ _ Hc Hne).
    destruct (py_min_least Z.ltb Bid.completion_time Zltb_asym Zgeb_trans _ Hne)
      as (w & Hw & Hin & Hleast).
    exists w. rewrite Hw. repeat split; [exact Hin |].
    intros b Hb. apply Z.ltb_ge, Hleast, Hb.
Qed.

Lemma evaluate_bids_minimum_witness :
  (exists w,
     fst (evaluate_bids 1 market) = Reply (bid_evaluated w) 200 /\
     In w (bids_of market 1) /\
     forall b, In b (bids_of market 1) -> (Bid.price w <= Bid.price b)%Q) /\
  (exists w,
     fst (evaluate_bids 2 market) = Reply (bid_evaluated w) 200 /\
     In w (bids_of market 2) /\
     forall b, In b (bids_of market 2) ->
               Bid.completion_time w <= Bid.completion_time b).
Proof.
  split.
  - apply (evaluate_bids_minimum market 1 fence); [reflexivity | discriminate |].
    reflexivity.
  - apply (evaluate_bids_minimum market 2 roof); [reflexivity | discriminate |].
    reflexivity.
Defined.

(** C5. For an existing task without bids, [evaluate_bids] fails with the
    no-bids error (status 404) and its reply is never a winning bid. *)
Theorem evaluate_bids_no_bids :
  forall st task_id task,
    task_of st task_id = Some task ->
    bids_of st task_id = [] ->
    evaluate_bids task_id st =
      (Reply (error "No bids found for this task") 404, st) /\
    forall w, fst (evaluate_bids task_id st) <> Reply (bid_evaluated w) 200.
Proof.
  intros st task_id task Htask Hbids.
  rewrite evaluate_bids_unfold, Htask, Hbids. cbn [fst evaluation].
  split; [reflexivity | discriminate].
Qed.

Lemma evaluate_bids_no_bids_witness :
  evaluate_bids 3 market =
    (Reply (error "No bids found for this task") 404, market) /\
  forall w, fst (evaluate_bids 3 market) <> Reply (bid_evaluated w) 200.
Proof.
  apply (evaluate_bids_no_bids market 3 lawn); reflexivity.
Defined.

(** C8. [evaluate_bids] is a query: whatever the task id and the stores, it
    hands back the task table and the bid table it was given, and running
    it again on the state it leaves gives the same reply. *)
Theorem evaluate_bids_pure :
  forall task_id st,
    snd (evaluate_bids task_id st) = st /\
    task_table (snd (evaluate_bids task_id st)) = task_table st /\
    bid_table (snd (evaluate_bids task_id st)) = bid_table st /\
    evaluate_bids task_id (snd (evaluate_bids task_id st)) =
    evaluate_bids task_id st.
Proof.
  intros task_id st. rewrite evaluate_bids_unfold. cbn [snd].
  rewrite evaluate_bids_unfold. repeat split; reflexivity.
Qed.

(** C9. For an existing task whose criteria is neither of the two
    recognised values, [evaluate_bids] on a non-empty set of bids fails with
    the unknown-criteria error (status 400) and its reply is no bid. *)
Theorem evaluate_bids_unknown_criteria :
  forall st task_id task,
    task_of st task_id = Some task ->
    Task.criteria task <> "lowest price" ->
    Task.criteria task <> "fastest completion" ->
    bids_of st task_id <> [] ->
    evaluate_bids task_id st =
      (Reply (error "Unknown evaluation criteria") 400, st) /\
    forall w, fst (evaluate_bids task_id st) <> Reply (bid_evaluated w) 200.
Proof.
  intros st task_id task Htask Hlow Hfast Hne.
  rewrite evaluate_bids_unfold, Htask. cbn [fst].
  destruct (bids_of st task_id) as [| b rest]; [contradiction |].
  unfold evaluation.
  apply String.eqb_neq in Hlow, Hfast. rewrite Hlow, Hfast.
  split; [reflexivity | discriminate].
Qed.

Lemma evaluate_bids_unknown_criteria_witness :
  evaluate_bids 4 market =
    (Reply (error "Unknown evaluation criteria") 400, market) /\
  forall w, fst (evaluate_bids 4 market) <> Reply (bid_evaluated w) 200.
Proof.
  apply (evaluate_bids_unknown_criteria market 4 shed);
    [reflexivity | discriminate | discriminate | discriminate].
Defined.

(** C10. When several bids tie for the least key, [evaluate_bids] answers
    with the first of them in the order of the bid sequence, under either
    criterion; and the winner is a function of the task's criteria and the
    bid sequence: any run that meets the same criteria and the same
    sequence gives the same reply. *)
Theorem evaluate_bids_first_minimum :
  forall st task_id task,
    task_of st task_id = Some task ->
    bids_of st task_id <> [] ->
    (Task.criteria task = "lowest price" ->
     exists w,
       fst (evaluate_bids task_id st) = Reply (bid_evaluated w) 200 /\
       first_least Qlt Qle Bid.price (bids_of st task_id) w) /\
    (Task.criteria task = "fastest completion" ->
     exists w,
       fst (evaluate_bids task_id st) = Reply (bid_evaluated w) 200 /\
       first_least Z.lt Z.le Bid.completion_time (bids_of st task_id) w) /\
    (forall st' task_id' task',
       task_of st' task_id' = Some task' ->
       Task.criteria task' = Task.criteria task ->
       bids_of st' task_id' = bids_of st task_id ->
       fst (evaluate_bids task_id' st') = fst (evaluate_bids task_id st)).
Proof.
  intros st task_id task Htask Hne. split; [| split].
  - intros Hc. rewrite evaluate_bids_unfold, Htask. cbn [fst].
    rewrite (evaluation_lowest_price _ _ Hc Hne).
    destruct (py_min_first Qltb Bid.price Qltb_asym Qgeb_trans _ Hne)
      as (l1 & w & l2 & Hsplit & Hw & Hbefore & Hafter).
    exists w. rewrite Hw. split; [reflexivity |].
    exists l1, l2. split; [exact Hsplit |]. split; intros b Hb.
    + apply Qltb_lt, Hbefore, Hb.
    + apply Qltb_ge, Hafter, Hb.
  - intros Hc. rewrite evaluate_bids_unfold, Htask. cbn [fst].
    rewrite (evaluation_fastest_completion _ _ Hc Hne).
    destruct (py_min_first Z.ltb Bid.completion_time Zltb_asym Zgeb_trans _ Hne)
      as (l1 & w & l2 & Hsplit & Hw & Hbefore & Hafter).
    exists w. rewrite Hw. split; [reflexivity |].
    exists l1, l2. split; [exact Hsplit |]. split; intros b Hb.
    + apply Z.ltb_lt, Hbefore, Hb.
    + apply Z.ltb_ge, Hafter, Hb.
  - intros st' task_id' task' Htask' Hc Hbids.
    rewrite !evaluate_bids_unfold. cbn [fst].
    rewrite Htask, Htask', Hbids. unfold evaluation. rewrite Hc. reflexivity.
Qed.

Lemma evaluate_bids_first_minimum_witness :
  (exists w,
     fst (evaluate_bids 1 market) = Reply (bid_evaluated w) 200 /\
     first_least Qlt Qle Bid.price (bids_of market 1) w) /\
  (exists w,
     fst (evaluate_bids 2 market) = Reply (bid_evaluated w) 200 /\
     first_least Z.lt Z.le Bid.completion_time (bids_of market 2) w) /\
  fst (evaluate_bids 2 market_later) = fst (evaluate_bids 2 market).
Proof.
  split; [| split].
  - apply (evaluate_bids_first_minimum market 1 fence);
      [reflexivity | discriminate | reflexivity].
  - apply (evaluate_bids_first_minimum market 2 roof);
      [reflexivity | discriminate | reflexivity].
  - apply (evaluate_bids_first_minimum market 2 roof)
      with (task' := roof); [reflexivity | discriminate | reflexivity ..].
Defined.

(** The tie on the roof goes to the earlier bid [bid_c], and the tie on the
    fence between [bid_b] and [bid_e] (40/1 and 80/2) to [bid_b]. *)
Example market_roof_tie :
  Bid.completion_time bid_c = Bid.completion_time bid_d /\
  fst (evaluate_bids 2 market) = Reply (bid_evaluated bid_c) 200.
Proof. split; reflexivity. Qed.

Example market_fence_tie :
  (Bid.price bid_b == Bid.price bid_e)%Q /\
  fst (evaluate_bids 1 market) = Reply (bid_evaluated bid_b) 200.
Proof. split; reflexivity. Qed.

(** * The sweep *)

Lemma filter_twice :
  forall (A : Type) (f g : A -> bool) (l : list A),
    filter f (filter g l) = filter (fun x => g x && f x) l.
Proof.
  intros A f g l. induction l as [| x l IH]; [reflexivity |].
  simpl. destruct (g x); simpl; [destruct (f x) |]; rewrite IH; reflexivity.
Qed.

Lemma filter_all :
  forall (A : Type) (f : A -> bool) (l : list A),
    (forall x, In x l -> f x = true) -> filter f l = l.
Proof.
  intros A f l. induction l as [| x l IH]; intros H; [reflexivity |].
  simpl. rewrite (H x (or_introl eq_refl)). f_equal.
  apply IH. intros y Hy. apply H. right. exact Hy.
Qed.

(** The loop of deletions, run from any session [acc], leaves the bid table
    of [acc] and drops from its task table the rows that carry the id of one
    of the listed tasks. *)
Lemma delete_loop :
  forall (l : list Task.t) (acc : session unit) (st : db),
    fold_left (fun (acc : session unit) task => _ <- acc ;; session_delete_task task)
              l acc st =
    (tt, mkdb (filter (fun r => negb (existsb (fun task => has_id task r) l))
                      (task_table (snd (acc st))))
              (bid_table (snd (acc st)))).
Proof.
  induction l as [| task l IH]; intros acc st.
  - simpl. destruct (acc st) as [[] [tasks bids]]. simpl.
    rewrite filter_all; [reflexivity | auto].
  - simpl fold_left. rewrite IH. unfold bind, session_delete_task.
    destruct (acc st) as [[] [tasks bids]]. simpl.
    rewrite filter_twice. f_equal. f_equal. apply filter_ext.
    intros r. unfold has_id. rewrite negb_orb. reflexivity.
Qed.

Lemma close_expired_tasks_unfold :
  forall now st,
    close_expired_tasks now st =
    (closed_line (List.length (filter (fun t => Task.deadline t <? now) (task_table st))),
     mkdb (filter (fun r =>
                     negb (existsb (fun task => has_id task r)
                             (filter (fun t => Task.deadline t <? now) (task_table st))))
                  (task_table st))
          (bid_table st)).
Proof.
  intros now st. unfold close_expired_tasks, query_tasks_before.
  unfold bind at 1. unfold bind at 1. rewrite delete_loop. reflexivity.
Qed.

Lemma swept_bid_table :
  forall now st, bid_table (swept now st) = bid_table st.
Proof.
  intros now st. unfold swept. rewrite close_expired_tasks_unfold. reflexivity.
Qed.

(** A row survives the sweep exactly when no task found expired has its id. *)
Lemma swept_task_table_in :
  forall now st r,
    In r (task_table (swept now st)) <->
    In r (task_table st) /\
    forall t, In t (task_table st) -> Task.deadline t < now ->
              Task.id r <> Task.id t.
Proof.
  intros now st r. unfold swept. rewrite close_expired_tasks_unfold.
  cbn [snd task_table]. rewrite filter_In. apply and_iff_compat_l.
  rewrite negb_true_iff. split.
  - intros Hnone t Hin Hexp Hid.
    assert (Hsome : existsb (fun task => has_id task r)
                      (filter (fun t => Task.deadline t <? now) (task_table st)) = true).
    { apply existsb_exists. exists t. split.
      - apply filter_In. split; [exact Hin | apply Z.ltb_lt, Hexp].
      - unfold has_id. apply Z.eqb_eq, Hid. }
    rewrite Hnone in Hsome. discriminate.
  - intros Hall. destruct (existsb _ _) eqn:E; [| reflexivity].
    apply existsb_exists in E. destruct E as (t & Hin & Hid).
    apply filter_In in Hin. destruct Hin as [Hin Hexp].
    exfalso. apply (Hall t Hin); [apply Z.ltb_lt, Hexp | apply Z.eqb_eq, Hid].
Qed.

Lemma pk_unique_inj :
  forall st a b,
    pk_unique st -> In a (task_table st) -> In b (task_table st) ->
    Task.id a = Task.id b -> a = b.
Proof.
  intros st a b. unfold pk_unique.
  induction (task_table st) as [| x l IH]; intros Hnd Ha Hb Hid; [contradiction |].
  simpl in Hnd. inversion Hnd as [| ? ? Hnotin Hnd']; subst.
  destruct Ha as [Ha | Ha], Hb as [Hb | Hb].
  - congruence.
  - subst a. exfalso. apply Hnotin. rewrite Hid. apply in_map, Hb.
  - subst b. exfalso. apply Hnotin. rewrite <- Hid. apply in_map, Ha.
  - apply IH; assumption.
Qed.

(** With a primary key, the rows the sweep keeps are those not yet due. *)
Lemma swept_task_table :
  forall now st,
    pk_unique st ->
    task_table (swept now st) =
    filter (fun t => negb (Task.deadline t <? now)) (task_table st).
Proof.
  intros now st Hpk. unfold swept. rewrite close_expired_tasks_unfold.
  cbn [snd task_table]. apply filter_ext_in. intros r Hr. f_equal.
  destruct (Task.deadline r <? now) eqn:Hexp.
  - apply existsb_exists. exists r. split.
    + apply filter_In. split; assumption.
    + unfold has_id. apply Z.eqb_refl.
  - destruct (existsb _ _) eqn:E; [| reflexivity].
    apply existsb_exists in E. destruct E as (t & Hin & Hid).
    apply filter_In in Hin. destruct Hin as [Hin Ht].
    apply Z.eqb_eq in Hid.
    rewrite (pk_unique_inj st r t Hpk Hr Hin Hid) in Hexp. congruence.
Qed.

Lemma task_of_none :
  forall st task_id,
    task_of st task_id = None <->
    forall t, In t (task_table st) -> Task.id t <> task_id.
Proof.
  intros st task_id. unfold task_of, find_task, query_get_task. cbn [fst]. split.
  - intros Hnone t Hin Hid.
    pose proof (find_none _ _ Hnone t Hin) as Hf. cbv beta in Hf.
    apply Z.eqb_neq in Hf. contradiction.
  - intros Hall. destruct (find _ _) as [t |] eqn:E; [| reflexivity].
    apply find_some in E. destruct E as [Hin Hid].
    apply Z.eqb_eq in Hid. exfalso. exact (Hall t Hin Hid).
Qed.

Lemma market_pk_unique : pk_unique market.
Proof.
  unfold pk_unique. simpl.
  repeat (apply NoDup_cons; [simpl; intuition discriminate |]).
  apply NoDup_nil.
Qed.

(** C2, as the code has it. The sweep deletes task rows only and keeps
    every bid: after a sweep a bid refers to a task absent from the task
    table exactly when it did so before the sweep or its task was due
    before the clock reading; the bids of the tasks swept away stay. *)
Theorem close_expired_tasks_keeps_bids :
  forall now st,
    bid_table (swept now st) = bid_table st /\
    forall b,
      In b (bid_table (swept now st)) ->
      (orphan (swept now st) b <->
       orphan st b \/
       exists t, In t (task_table st) /\ Task.id t = Bid.task_id b /\
                 Task.deadline t < now).
Proof.
  intros now st. split; [apply swept_bid_table |].
  intros b _. unfold orphan. rewrite !task_of_none. split.
  - intros Hgone.
    destruct (existsb (fun t => (Task.id t =? Bid.task_id b) && (Task.deadline t <? now))
                (task_table st)) eqn:E.
    + right. apply existsb_exists in E. destruct E as (t & Hin & Ht).
      apply andb_true_iff in Ht. destruct Ht as [Hid Hexp].
      exists t. repeat split;
        [exact Hin | apply Z.eqb_eq, Hid | apply Z.ltb_lt, Hexp].
    + left. intros r Hr Hid. apply (Hgone r); [| exact Hid].
      apply swept_task_table_in. split; [exact Hr |].
      intros t Hin Hexp Heq.
      assert (Hsome : existsb (fun t => (Task.id t =? Bid.task_id b) &&
                                        (Task.deadline t <? now))
                        (task_table st) = true).
      { apply existsb_exists. exists t. split; [exact Hin |].
        apply andb_true_iff. split; [apply Z.eqb_eq; lia | apply Z.ltb_lt, Hexp]. }
      rewrite E in Hsome. discriminate.
  - intros [Habsent | (t & Hin & Hid & Hexp)] r Hr Hrid;
      apply swept_task_table_in in Hr; destruct Hr as [Hr Hkeep].
    + exact (Habsent r Hr Hrid).
    + apply (Hkeep t Hin Hexp). lia.
Qed.

Lemma close_expired_tasks_keeps_bids_witness :
  bid_table (swept 6000 market) = bid_table market /\
  (orphan (swept 6000 market) bid_a <->
   orphan market bid_a \/
   exists t, In t (task_table market) /\ Task.id t = Bid.task_id bid_a /\
             Task.deadline t < 6000).
Proof.
  destruct (close_expired_tasks_keeps_bids 6000 market) as [Hbids Horphan].
  split; [exact Hbids |]. apply Horphan. left. reflexivity.
Defined.

(** C2, as the claim has it, fails: at clock reading 6000 the fence
    (deadline 5000) is swept away and its bid [bid_a], which had its task
    before the sweep, is still in the bid table without one. *)
Lemma close_expired_tasks_orphans_bid :
  ~ orphan market bid_a /\
  In bid_a (bid_table (swept 6000 market)) /\
  orphan (swept 6000 market) bid_a.
Proof.
  split; [discriminate |]. split; [left; reflexivity | reflexivity].
Qed.

(** C6, as the code has it. With a primary key on the task table, one
    sweep deletes exactly the tasks whose deadline is strictly before the
    clock reading (a task due at or after it stays), keeps the bid table as
    it is, and prints the count of the tasks removed. *)
Theorem close_expired_tasks_exact :
  forall now st,
    pk_unique st ->
    task_table (swept now st) =
      filter (fun t => negb (Task.deadline t <? now)) (task_table st) /\
    (forall t, In t (task_table st) ->
               (In t (task_table (swept now st)) <-> now <= Task.deadline t)) /\
    bid_table (swept now st) = bid_table st /\
    printed now st =
      closed_line (List.length (task_table st) -
                   List.length (task_table (swept now st)))%nat.
Proof.
  intros now st Hpk. pose proof (swept_task_table now st Hpk) as Htasks.
  split; [exact Htasks |]. split; [| split].
  - intros t Hin. rewrite Htasks, filter_In, negb_true_iff, Z.ltb_ge.
    tauto.
  - apply swept_bid_table.
  - rewrite Htasks. unfold printed. rewrite close_expired_tasks_unfold.
    cbn [fst]. f_equal.
    pose proof (filter_length (fun t => Task.deadline t <? now) (task_table st)).
    lia.
Qed.

Lemma close_expired_tasks_exact_witness :
  task_table (swept 6000 market) = [roof; lawn; shed] /\
  (forall t, In t (task_table market) ->
             (In t (task_table (swept 6000 market)) <-> 6000 <= Task.deadline t)) /\
  bid_table (swept 6000 market) = bid_table market /\
  printed 6000 market = "Closed 1 expired tasks.".
Proof.
  exact (close_expired_tasks_exact 6000 market market_pk_unique).
Defined.

(** C6, as the claim has it, fails: the sweep at 6000 removes the fence,
    due at 5000, and the three bids made for it are still returned by the
    query on its id. *)
Lemma close_expired_tasks_leaves_bids :
  Task.deadline fence < 6000 /\
  task_of market 1 = Some fence /\
  task_of (swept 6000 market) 1 = None /\
  bids_of (swept 6000 market) 1 = [bid_a; bid_b; bid_e].
Proof. repeat split. Qed.

(** * Submitting bids and creating tasks *)

Lemma submit_bid_found :
  forall st task_id task data now,
    task_of st task_id = Some task ->
    submit_bid task_id data now st =
    (Reply (bid_submitted (new_bid st task data now)) 201,
     mkdb (task_table st) (bid_table st ++ [new_bid st task data now])).
Proof.
  intros st task_id task data now Htask.
  unfold task_of, find_task, query_get_task in Htask. cbn [fst] in Htask.
  unfold submit_bid, bind, find_task, query_get_task. rewrite Htask.
  reflexivity.
Qed.

Lemma submit_bid_not_found :
  forall st task_id data now,
    task_of st task_id = None ->
    submit_bid task_id data now st = (Reply (error "Task not found") 404, st).
Proof.
  intros st task_id data now Htask.
  unfold task_of, find_task, query_get_task in Htask. cbn [fst] in Htask.
  unfold submit_bid, bind, find_task, query_get_task. rewrite Htask.
  reflexivity.
Qed.


Lemma create_task_unfold :
  forall st data now,
    create_task data now st =
    (Reply (task_created (new_task st data now)) 201,
     mkdb (task_table st ++ [new_task st data now]) (bid_table st)).
Proof. reflexivity. Qed.







(** C4, as the code has it. [create_task] validates nothing: whatever the
    title, the description, the deadline and the criteria, it persists a
    task with those fields and [created_at] the current time at the end of
    the task table and answers 201; when the deadline is strictly after the
    current time, the task's [created_at] is at most its deadline. *)
Theorem create_task_accepts :
  forall st data now,
    exists task,
      create_task data now st =
        (Reply (task_created task) 201,
         mkdb (task_table st ++ [task]) (bid_table st)) /\
      Task.title task = data_title data /\
      Task.description task = data_description data /\
      Task.deadline task = data_deadline data /\
      Task.criteria task = data_criteria data /\
      Task.created_at task = now /\
      (now < data_deadline data -> Task.created_at task <= Task.deadline task).
Proof.
  intros st data now. exists (new_task st data now).
  rewrite create_task_unfold. repeat split. simpl. lia.
Qed.

Lemma create_task_accepts_witness :
  exists task,
    create_task (mk_task_data "Clean gutters" "Both sides" 9000 "lowest price")
                3000 market =
      (Reply (task_created task) 201,
       mkdb (task_table market ++ [task]) (bid_table market)) /\
    Task.created_at task = 3000 /\
    Task.created_at task <= Task.deadline task.
Proof.
  destruct (create_task_accepts market
              (mk_task_data "Clean gutters" "Both sides" 9000 "lowest price") 3000)
    as (task & Hrun & _ & _ & _ & _ & Hnow & Hle).
  exists task. split; [exact Hrun |]. split; [exact Hnow |].
  apply Hle. reflexivity.
Defined.

(** C4, as the claim has it, fails: an empty title, an empty description,
    a deadline equal to the current time and a criteria outside the two
    recognised values are each accepted with 201, and the task is added to
    the task table. *)
Lemma create_task_accepts_invalid :
  (status_of (fst (create_task (mk_task_data "" "Both sides" 9000 "lowest price")
                               3000 market)) = Some 201 /\
   task_table (snd (create_task (mk_task_data "" "Both sides" 9000 "lowest price")
                                3000 market)) =
     task_table market ++ [Task.mk 5 "" "Both sides" 9000 "lowest price" 3000]) /\
  (status_of (fst (create_task (mk_task_data "Clean gutters" "" 9000 "lowest price")
                               3000 market)) = Some 201 /\
   task_table (snd (create_task (mk_task_data "Clean gutters" "" 9000 "lowest price")
                                3000 market)) =
     task_table market ++ [Task.mk 5 "Clean gutters" "" 9000 "lowest price" 3000]) /\
  (status_of (fst (create_task (mk_task_data "Clean gutters" "Both sides" 3000
                                             "lowest price")
                               3000 market)) = Some 201 /\
   task_table (snd (create_task (mk_task_data "Clean gutters" "Both sides" 3000
                                              "lowest price")
                                3000 market)) =
     task_table market ++
       [Task.mk 5 "Clean gutters" "Both sides" 3000 "lowest price" 3000]) /\
  (status_of (fst (create_task (mk_task_data "Clean gutters" "Both sides" 9000
                                             "cheapest")
                               3000 market)) = Some 201 /\
   task_table (snd (create_task (mk_task_data "Clean gutters" "Both sides" 9000
                                              "cheapest")
                                3000 market)) =
     task_table market ++
       [Task.mk 5 "Clean gutters" "Both sides" 9000 "cheapest" 3000]).
Proof. repeat split. Qed.

(** * The primary key along any history of requests *)

Example market_reached : run market_history empty_db = market.
Proof. reflexivity. Qed.

Lemma fold_max_bounds :
  forall (l : list Z) (a : Z),
    a <= fold_left Z.max l a /\ forall x, In x l -> x <= fold_left Z.max l a.
Proof.
  induction l as [| y l IH]; intros a; simpl.
  - split; [lia | intros x []].
  - destruct (IH (Z.max a y)) as [Hacc Hall]. split; [lia |].
    intros x [Hx | Hx]; [subst x; lia | apply Hall, Hx].
Qed.

Lemma next_rowid_fresh :
  forall ids i, In i ids -> i < next_rowid ids.
Proof.
  intros [| a rest] i Hin; [contradiction |].
  unfold next_rowid. destruct (fold_max_bounds rest a) as [Ha Hrest].
  destruct Hin as [Hi | Hi]; [subst i; lia |].
  specialize (Hrest i Hi). lia.
Qed.

Lemma NoDup_map_filter :
  forall (A B : Type) (f : A -> B) (p : A -> bool) (l : list A),
    NoDup (map f l) -> NoDup (map f (filter p l)).
Proof.
  intros A B f p l. induction l as [| x l IH]; intros Hnd; [exact Hnd |].
  simpl in Hnd. inversion Hnd as [| ? ? Hnotin Hnd']; subst.
  simpl. destruct (p x); [| apply IH, Hnd'].
  simpl. apply NoDup_cons; [| apply IH, Hnd'].
  intros Hin. apply Hnotin. apply in_map_iff in Hin.
  destruct Hin as (y & Hy & Hfy). apply filter_In in Hfy.
  apply in_map_iff. exists y. tauto.
Qed.

Lemma pk_unique_handle :
  forall st r, pk_unique st -> pk_unique (handle st r).
Proof.
  intros st r Hpk. unfold pk_unique in *. destruct r as [data now | task_id data now | task_id | now];
    cbn [handle].
  - rewrite create_task_unfold. cbn [snd task_table]. rewrite map_app.
    apply NoDup_app; [exact Hpk | apply NoDup_cons; [intros [] | apply NoDup_nil] |].
    intros a Ha [Hnew | []]. simpl in Hnew.
    apply next_rowid_fresh in Ha. lia.
  - destruct (task_of st task_id) as [task |] eqn:Htask.
    + rewrite (submit_bid_found _ _ _ _ _ Htask). exact Hpk.
    + rewrite (submit_bid_not_found _ _ _ _ Htask). exact Hpk.
  - rewrite evaluate_bids_unfold. exact Hpk.
  - rewrite close_expired_tasks_unfold. cbn [snd task_table].
    apply NoDup_map_filter, Hpk.
Qed.

(** Every database the application reaches from the empty one has a
    primary key on its task table. *)
Lemma pk_unique_run :
  forall history st, pk_unique st -> pk_unique (run history st).
Proof.
  unfold run. induction history as [| r history IH]; intros st Hpk; [exact Hpk |].
  simpl. apply IH, pk_unique_handle, Hpk.
Qed.

Lemma pk_unique_reached :
  forall history, pk_unique (run history empty_db).
Proof.
  intros history. apply pk_unique_run. unfold pk_unique. simpl. apply NoDup_nil.
Qed.

(** * Requests for a task that is not there *)





Lemma py_min_some :
  forall (A K : Type) (ltb : K -> K -> bool) (key : A -> K) (l : list A),
    l <> [] -> exists w, py_min ltb key l = Some w /\ In w l.
Proof.
  intros A K ltb key [| x xs] Hne; [contradiction |].
  exists (fold_left (min_step ltb key) xs x). split; [reflexivity |].
  clear Hne. revert x. induction xs as [| y ys IH]; intros x; simpl.
  - left. reflexivity.
  - destruct (IH (min_step ltb key x y)) as [Hhead | Htail].
    + unfold min_step in Hhead at 1.
      destruct (ltb (key y) (key x)); [right; left | left]; exact Hhead.
    + right. right. exact Htail.
Qed.


(** X4. Whenever [evaluate_bids] answers 200, the winner it reports is a
    row of the bid table whose [task_id] is the id asked for: it never
    picks a bid made for another task. *)
Theorem evaluate_bids_winner_of_task :
  forall st task_id body,
    fst (evaluate_bids task_id st) = Reply body 200 ->
    exists w,
      body = bid_evaluated w /\
      In w (bid_table st) /\
      Bid.task_id w = task_id.
Proof.
  intros st task_id body. rewrite evaluate_bids_unfold. cbn [fst].
  destruct (task_of st task_id) as [task |]; cbn [evaluation]; [| discriminate].
  destruct (bids_of st task_id) as [| b rest] eqn:Hbids; [discriminate |].
  assert (Hne : b :: rest <> []) by discriminate.
  assert (Hstored : forall w, In w (b :: rest) ->
                              In w (bid_table st) /\ Bid.task_id w = task_id).
  { intros w Hin. rewrite <- Hbids in Hin.
    unfold bids_of, query_bids_by_task in Hin. cbn [fst] in Hin.
    apply filter_In in Hin. destruct Hin as [Hin Hid].
    split; [exact Hin | apply Z.eqb_eq, Hid]. }
  destruct (Task.criteria task =? "lowest price")%string.
  - destruct (py_min_some _ _ Qltb Bid.price _ Hne) as (w & Hw & Hin).
    rewrite Hw. cbn [reply_winner]. intros Hreply. injection Hreply as <-.
    exists w. split; [reflexivity | apply Hstored, Hin].
  - destruct (Task.criteria task =? "fastest completion")%string; [| discriminate].
    destruct (py_min_some _ _ Z.ltb Bid.completion_time _ Hne) as (w & Hw & Hin).
    rewrite Hw. cbn [reply_winner]. intros Hreply. injection Hreply as <-.
    exists w. split; [reflexivity | apply Hstored, Hin].
Qed.

Lemma evaluate_bids_winner_of_task_witness :
  exists w,
    bid_evaluated bid_b = bid_evaluated w /\
    In w (bid_table market) /\
    Bid.task_id w = 1.
Proof.
  apply (evaluate_bids_winner_of_task market 1). reflexivity.
Defined.

(** * A write followed by a read *)

Lemma find_app_first :
  forall (A : Type) (p : A -> bool) (l l' : list A),
    find p (l ++ l') =
    match find p l with
    | Some x => Some x
    | None => find p l'
    end.
Proof.
  intros A p l l'. induction l as [| x l IH]; [reflexivity |].
  simpl. destruct (p x); [reflexivity | exact IH].
Qed.

Lemma task_of_fresh :
  forall st, task_of st (next_rowid (map Task.id (task_table st))) = None.
Proof.
  intros st. apply task_of_none. intros t Hin Hid.
  pose proof (next_rowid_fresh (map Task.id (task_table st)) (Task.id t)
                (in_map Task.id _ _ Hin)).
  lia.
Qed.

(** The lookups after [create_task]: the new id finds the new row, every
    other id finds what it found before. *)
Lemma task_of_create_task :
  forall st data now k,
    task_of (snd (create_task data now st)) k =
    if k =? Task.id (new_task st data now)
    then Some (new_task st data now)
    else task_of st k.
Proof.
  intros st data now k. rewrite create_task_unfold. cbn [snd].
  unfold task_of at 1. unfold find_task, query_get_task. cbn [fst task_table].
  rewrite find_app_first.
  change (find (fun t => Task.id t =? k) (task_table st)) with (task_of st k).
  destruct (k =? Task.id (new_task st data now)) eqn:Hk.
  - apply Z.eqb_eq in Hk. subst k. cbn [new_task Task.id].
    rewrite task_of_fresh. simpl. rewrite Z.eqb_refl. reflexivity.
  - destruct (task_of st k); [reflexivity |].
    cbn [find]. rewrite Z.eqb_sym, Hk. reflexivity.
Qed.





(** X6. The id [create_task] reports is new and finds the task: before
    the call no row had that id, after it the lookup of that id gives the
    created task with the fields of the request, every other lookup gives
    what it gave before, and the bid table is untouched. *)
Theorem create_task_then_find :
  forall st data now,
    exists task,
      fst (create_task data now st) = Reply (task_created task) 201 /\
      task_of st (Task.id task) = None /\
      task_of (snd (create_task data now st)) (Task.id task) = Some task /\
      (forall k, k <> Task.id task ->
                 task_of (snd (create_task data now st)) k = task_of st k) /\
      bid_table (snd (create_task data now st)) = bid_table st.
Proof.
  intros st data now. exists (new_task st data now).
  split; [reflexivity |]. split; [apply task_of_fresh |]. split; [| split].
  - rewrite task_of_create_task, Z.eqb_refl. reflexivity.
  - intros k Hk. rewrite task_of_create_task.
    apply Z.eqb_neq in Hk. rewrite Hk. reflexivity.
  - reflexivity.
Qed.







(** * What every history keeps *)

Lemma rowid_order_nil : rowid_order [].
Proof. split; constructor. Qed.

Lemma StronglySorted_snoc :
  forall (l : list Z) (x : Z),
    StronglySorted Z.lt l -> (forall i, In i l -> i < x) ->
    StronglySorted Z.lt (l ++ [x]).
Proof.
  induction l as [| a l IH]; intros x Hsorted Hbelow; simpl.
  - constructor; constructor.
  - apply StronglySorted_inv in Hsorted. destruct Hsorted as [Hl Ha].
    constructor.
    + apply IH; [exact Hl |]. intros i Hi. apply Hbelow. right. exact Hi.
    + apply Forall_app. split; [exact Ha |].
      constructor; [| constructor]. apply Hbelow. left. reflexivity.
Qed.

Lemma next_rowid_positive :
  forall ids, Forall (fun i => 1 <= i) ids -> 1 <= next_rowid ids.
Proof.
  intros [| a rest] Hpos; simpl; [lia |].
  inversion Hpos as [| ? ? Ha _]; subst.
  destruct (fold_max_bounds rest a) as [Hge _]. lia.
Qed.

Lemma rowid_order_insert :
  forall ids, rowid_order ids -> rowid_order (ids ++ [next_rowid ids]).
Proof.
  intros ids [Hsorted Hpos]. split.
  - apply StronglySorted_snoc; [exact Hsorted | apply next_rowid_fresh].
  - apply Forall_app. split; [exact Hpos |].
    constructor; [apply next_rowid_positive, Hpos | constructor].
Qed.

Lemma Forall_map_filter :
  forall (A B : Type) (f : A -> B) (p : A -> bool) (P : B -> Prop) (l : list A),
    Forall P (map f l) -> Forall P (map f (filter p l)).
Proof.
  intros A B f p P l. induction l as [| x l IH]; intros H; [exact H |].
  simpl in H. inversion H as [| ? ? Hx Hl]; subst.
  simpl. destruct (p x); [simpl; constructor; [exact Hx |] |]; apply IH, Hl.
Qed.

Lemma rowid_order_delete :
  forall (p : Task.t -> bool) (l : list Task.t),
    rowid_order (map Task.id l) -> rowid_order (map Task.id (filter p l)).
Proof.
  intros p l [Hsorted Hpos]. split; [| apply Forall_map_filter, Hpos].
  clear Hpos. induction l as [| x l IH]; [exact Hsorted |].
  simpl in Hsorted. apply StronglySorted_inv in Hsorted.
  destruct Hsorted as [Hl Hx]. simpl. destruct (p x); [| apply IH, Hl].
  simpl. constructor; [apply IH, Hl | apply Forall_map_filter, Hx].
Qed.

Lemma tables_in_order_handle :
  forall st r, tables_in_order st -> tables_in_order (handle st r).
Proof.
  intros st r [Htasks Hbids].
  destruct r as [data now | task_id data now | task_id | now]; cbn [handle].
  - rewrite create_task_unfold. split; [| exact Hbids].
    cbn [snd task_table]. rewrite map_app. apply rowid_order_insert, Htasks.
  - destruct (task_of st task_id) as [task |] eqn:Htask.
    + rewrite (submit_bid_found _ _ _ _ _ Htask). split; [exact Htasks |].
      cbn [snd bid_table]. rewrite map_app. apply rowid_order_insert, Hbids.
    + rewrite (submit_bid_not_found _ _ _ _ Htask). split; assumption.
  - rewrite evaluate_bids_unfold. split; assumption.
  - rewrite close_expired_tasks_unfold. split; [| exact Hbids].
    cbn [snd task_table]. apply rowid_order_delete, Htasks.
Qed.

Lemma StronglySorted_lt_NoDup :
  forall l : list Z, StronglySorted Z.lt l -> NoDup l.
Proof.
  induction l as [| a l IH]; intros H; [constructor |].
  apply StronglySorted_inv in H. destruct H as [Hl Ha].
  constructor; [| apply IH, Hl].
  intros Hin. rewrite Forall_forall in Ha. specialize (Ha a Hin). lia.
Qed.

(** X9. Whatever requests and sweeps the application has served since the
    empty database, both tables are in rowid order: task ids and bid ids
    are at least 1 and strictly increase down their table, so no two tasks
    and no two bids ever share an id. *)
Theorem tables_in_order_reached :
  forall history,
    tables_in_order (run history empty_db) /\
    NoDup (map Task.id (task_table (run history empty_db))) /\
    NoDup (map Bid.id (bid_table (run history empty_db))).
Proof.
  assert (Hrun : forall history st,
             tables_in_order st -> tables_in_order (run history st)).
  { unfold run. induction history as [| r history IH]; intros st Hst;
      [exact Hst |]. simpl. apply IH, tables_in_order_handle, Hst. }
  intros history.
  assert (Hok : tables_in_order (run history empty_db)).
  { apply Hrun. split; apply rowid_order_nil. }
  split; [exact Hok |]. destruct Hok as [[Htasks _] [Hbids _]].
  split; apply StronglySorted_lt_NoDup; assumption.
Qed.

Lemma bid_table_handle :
  forall st r, exists added, bid_table (handle st r) = bid_table st ++ added.
Proof.
  intros st r.
  destruct r as [data now | task_id data now | task_id | now]; cbn [handle].
  - exists []. rewrite create_task_unfold, app_nil_r. reflexivity.
  - destruct (task_of st task_id) as [task |] eqn:Htask.
    + exists [new_bid st task data now].
      rewrite (submit_bid_found _ _ _ _ _ Htask). reflexivity.
    + exists []. rewrite (submit_bid_not_found _ _ _ _ Htask), app_nil_r.
      reflexivity.
  - exists []. rewrite evaluate_bids_unfold, app_nil_r. reflexivity.
  - exists []. rewrite close_expired_tasks_unfold, app_nil_r. reflexivity.
Qed.

(** X10. No request and no sweep ever removes or alters a bid: after any
    history the bid table is the table it started from, followed by the
    bids accepted since. *)
Theorem bid_table_append_only :
  forall history st,
    exists added, bid_table (run history st) = bid_table st ++ added.
Proof.
  unfold run. induction history as [| r history IH]; intros st.
  - exists []. simpl. rewrite app_nil_r. reflexivity.
  - simpl. destruct (IH (handle st r)) as (later & Hlater).
    destruct (bid_table_handle st r) as (added & Hadded).
    exists (added ++ later). rewrite Hlater, Hadded, app_assoc. reflexivity.
Qed.

(** * Sweeps in sequence *)

Lemma swept_eq :
  forall now st,
    swept now st =
    mkdb (filter (fun r =>
                    negb (existsb (fun task => has_id task r)
                            (filter (fun t => Task.deadline t <? now) (task_table st))))
                 (task_table st))
         (bid_table st).
Proof.
  intros now st. unfold swept. rewrite close_expired_tasks_unfold. reflexivity.
Qed.

(** A row is kept when no row found due carries its id. *)
Lemma kept_spec :
  forall now (l : list Task.t) r,
    negb (existsb (fun task => has_id task r)
            (filter (fun t => Task.deadline t <? now) l)) = true <->
    forall t, In t l -> Task.deadline t < now -> Task.id r <> Task.id t.
Proof.
  intros now l r. rewrite negb_true_iff. split.
  - intros Hnone t Hin Hdue Hid.
    assert (Hsome : existsb (fun task => has_id task r)
                      (filter (fun t => Task.deadline t <? now) l) = true).
    { apply existsb_exists. exists t. split.
      - apply filter_In. split; [exact Hin | apply Z.ltb_lt, Hdue].
      - apply Z.eqb_eq, Hid. }
    rewrite Hnone in Hsome. discriminate.
  - intros Hall. destruct (existsb _ _) eqn:E; [| reflexivity].
    apply existsb_exists in E. destruct E as (t & Hin & Hid).
    apply filter_In in Hin. destruct Hin as [Hin Hdue].
    exfalso. apply (Hall t Hin); [apply Z.ltb_lt, Hdue | apply Z.eqb_eq, Hid].
Qed.

Lemma filter_none :
  forall (A : Type) (f : A -> bool) (l : list A),
    (forall x, In x l -> f x = false) -> filter f l = [].
Proof.
  intros A f l. induction l as [| x l IH]; intros H; [reflexivity |].
  simpl. rewrite (H x (or_introl eq_refl)).
  apply IH. intros y Hy. apply H. right. exact Hy.
Qed.

(** After a sweep at [now] no row of the task table is due before [now]. *)
Lemma swept_none_due :
  forall now st t, In t (task_table (swept now st)) -> now <= Task.deadline t.
Proof.
  intros now st t Hin. apply swept_task_table_in in Hin.
  destruct Hin as [Hin Hkeep].
  destruct (Z.lt_ge_cases (Task.deadline t) now) as [Hdue | Hok]; [| exact Hok].
  exfalso. exact (Hkeep t Hin Hdue eq_refl).
Qed.

(** X11. Sweeps compose by the later clock reading. For [now1 <= now2],
    a sweep at [now1] followed by one at [now2] leaves the database a single
    sweep at [now2] leaves; and after a sweep at [now2], a further sweep at
    [now1] (the same reading included) changes nothing and prints that it
    closed 0 tasks. *)
Theorem close_expired_tasks_twice :
  forall now1 now2 st,
    now1 <= now2 ->
    swept now2 (swept now1 st) = swept now2 st /\
    swept now1 (swept now2 st) = swept now2 st /\
    printed now1 (swept now2 st) = "Closed 0 expired tasks.".
Proof.
  intros now1 now2 st Hle. split; [| split].
  - rewrite (swept_eq now2 (swept now1 st)), (swept_eq now1 st), (swept_eq now2 st).
    cbn [task_table bid_table]. f_equal.
    rewrite filter_twice. apply filter_ext_in. intros r Hr.
    apply eq_true_iff_eq. rewrite andb_true_iff, !kept_spec. split.
    + intros [Hkeep1 Hkeep2] t Hin Hdue Hid.
      apply (Hkeep2 t); [| exact Hdue | exact Hid].
      apply filter_In. split; [exact Hin |]. apply kept_spec.
      intros t' Hin' Hdue'. rewrite <- Hid. apply Hkeep1; assumption.
    + intros Hkeep. split.
      * intros t Hin Hdue. apply Hkeep; [exact Hin | lia].
      * intros t Hin Hdue. apply filter_In in Hin. apply Hkeep; tauto.
  - rewrite (swept_eq now1 (swept now2 st)).
    rewrite filter_all; [destruct (swept now2 st); reflexivity |].
    intros r _. apply kept_spec. intros t Hin Hdue.
    apply swept_none_due in Hin. lia.
  - unfold printed. rewrite close_expired_tasks_unfold. cbn [fst].
    rewrite filter_none; [reflexivity |].
    intros t Hin. apply swept_none_due in Hin. apply Z.ltb_ge. lia.
Qed.

Lemma close_expired_tasks_twice_witness :
  swept 9500 (swept 6000 market) = swept 9500 market /\
  swept 6000 (swept 9500 market) = swept 9500 market /\
  printed 6000 (swept 9500 market) = "Closed 0 expired tasks.".
Proof.
  apply (close_expired_tasks_twice 6000 9500 market). lia.
Defined.

(** X12. Once a sweep has found a task due, the task is gone for the
    routes: [evaluate_bids] and [submit_bid] on its id both answer 404
    "Task not found" and change nothing, although its bids are still
    stored. *)
Theorem swept_task_not_found :
  forall st now t data now',
    In t (task_table st) ->
    Task.deadline t < now ->
    evaluate_bids (Task.id t) (swept now st) =
      (Reply (error "Task not found") 404, swept now st) /\
    submit_bid (Task.id t) data now' (swept now st) =
      (Reply (error "Task not found") 404, swept now st) /\
    bids_of (swept now st) (Task.id t) = bids_of st (Task.id t).
Proof.
  intros st now t data now' Hin Hdue.
  assert (Hgone : task_of (swept now st) (Task.id t) = None).
  { apply task_of_none. intros r Hr Hid.
    apply swept_task_table_in in Hr. destruct Hr as [_ Hkeep].
    exact (Hkeep t Hin Hdue Hid). }
  split; [| split].
  - rewrite evaluate_bids_unfold, Hgone. reflexivity.
  - apply submit_bid_not_found, Hgone.
  - unfold bids_of, query_bids_by_task. cbn [fst].
    rewrite swept_bid_table. reflexivity.
Qed.

Lemma swept_task_not_found_witness :
  evaluate_bids 1 (swept 6000 market) =
    (Reply (error "Task not found") 404, swept 6000 market) /\
  submit_bid 1 (mk_bid_data "H" (30 # 1) 2) 6100 (swept 6000 market) =
    (Reply (error "Task not found") 404, swept 6000 market) /\
  bids_of (swept 6000 market) 1 = bids_of market 1.
Proof.
  apply (swept_task_not_found market 6000 fence); [left; reflexivity | reflexivity].
Defined.

Lemma find_filter_kept :
  forall (A : Type) (p q : A -> bool) (l : list A) (x : A),
    find p l = Some x -> q x = true -> find p (filter q l) = Some x.
Proof.
  intros A p q l x. induction l as [| y l IH]; intros Hfind Hq; [discriminate |].
  simpl in Hfind. destruct (p y) eqn:Hp.
  - injection Hfind as ->. simpl. rewrite Hq. simpl. rewrite Hp. reflexivity.
  - simpl. destruct (q y); [simpl; rewrite Hp |]; apply IH; assumption.
Qed.

(** X13. A sweep leaves a task that is not yet due as it is: with the
    primary key on task ids, a task found before the sweep whose deadline
    is at or after the clock reading is found unchanged after it, with the
    same bids, and [evaluate_bids] answers for it as before. *)
Theorem sweep_spares_open_task :
  forall st now task_id task,
    pk_unique st ->
    task_of st task_id = Some task ->
    now <= Task.deadline task ->
    task_of (swept now st) task_id = Some task /\
    bids_of (swept now st) task_id = bids_of st task_id /\
    fst (evaluate_bids task_id (swept now st)) = fst (evaluate_bids task_id st).
Proof.
  intros st now task_id task Hpk Htask Hopen.
  assert (Hfound : task_of (swept now st) task_id = Some task).
  { unfold task_of, find_task, query_get_task. cbn [fst].
    rewrite (swept_task_table now st Hpk).
    apply find_filter_kept; [exact Htask |].
    apply negb_true_iff, Z.ltb_ge. exact Hopen. }
  assert (Hbids : bids_of (swept now st) task_id = bids_of st task_id).
  { unfold bids_of, query_bids_by_task. cbn [fst].
    rewrite swept_bid_table. reflexivity. }
  split; [exact Hfound |]. split; [exact Hbids |].
  rewrite !evaluate_bids_unfold. cbn [fst]. rewrite Hfound, Hbids, Htask.
  reflexivity.
Qed.

Lemma sweep_spares_open_task_witness :
  task_of (swept 6000 market) 2 = Some roof /\
  bids_of (swept 6000 market) 2 = bids_of market 2 /\
  fst (evaluate_bids 2 (swept 6000 market)) = fst (evaluate_bids 2 market).
Proof.
  apply (sweep_spares_open_task market 6000 2 roof);
    [exact market_pk_unique | reflexivity | discriminate].
Defined.

(** * Freed ids and retained bids *)

(** X14. A new task can own bids from its first moment. The id
    [create_task] hands out is the next rowid of the task table, so when a
    retained bid carries that id (its task was swept and the id has become
    free again), the created task has this bid among its bids, and
    [evaluate_bids] on it answers neither "Task not found" nor "No bids
    found". *)
Theorem create_task_adopts_bids :
  forall st data now b,
    In b (bid_table st) ->
    Bid.task_id b = next_rowid (map Task.id (task_table st)) ->
    exists task,
      fst (create_task data now st) = Reply (task_created task) 201 /\
      Task.id task = Bid.task_id b /\
      task_of (snd (create_task data now st)) (Task.id task) = Some task /\
      In b (bids_of (snd (create_task data now st)) (Task.id task)) /\
      status_of (fst (evaluate_bids (Task.id task) (snd (create_task data now st))))
        <> Some 404.
Proof.
  intros st data now b Hin Hid. exists (new_task st data now).
  assert (Hfound : task_of (snd (create_task data now st))
                     (Task.id (new_task st data now)) = Some (new_task st data now)).
  { rewrite task_of_create_task, Z.eqb_refl. reflexivity. }
  assert (Hbid : In b (bids_of (snd (create_task data now st))
                         (Task.id (new_task st data now)))).
  { unfold bids_of, query_bids_by_task. cbn [fst].
    apply filter_In. split; [exact Hin |]. apply Z.eqb_eq. exact Hid. }
  split; [reflexivity |]. split; [symmetry; exact Hid |].
  split; [exact Hfound |]. split; [exact Hbid |].
  rewrite evaluate_bids_unfold. cbn [fst]. rewrite Hfound.
  destruct (bids_of _ _) as [| b0 rest] eqn:Hbids; [contradiction |].
  assert (Hne : b0 :: rest <> []) by discriminate.
  cbn [evaluation].
  destruct (Task.criteria (new_task st data now) =? "lowest price")%string.
  - destruct (py_min_some _ _ Qltb Bid.price _ Hne) as (w & Hw & _).
    rewrite Hw. discriminate.
  - destruct (Task.criteria (new_task st data now) =? "fastest completion")%string;
      [| discriminate].
    destruct (py_min_some _ _ Z.ltb Bid.completion_time _ Hne) as (w & Hw & _).
    rewrite Hw. discriminate.
Qed.

(** The history of [market] followed by the sweep of 9500 gives
    [market_cleared]; the task created next takes id 1 and with it the
    three bids once made for the fence. *)
Lemma create_task_adopts_bids_witness :
  run (market_history ++ [Sweep 9500]) empty_db = market_cleared /\
  exists task,
    fst (create_task (mk_task_data "Wash car" "Inside too" 12000 "lowest price")
                     10000 market_cleared) = Reply (task_created task) 201 /\
    Task.id task = Bid.task_id bid_a /\
    task_of (snd (create_task (mk_task_data "Wash car" "Inside too" 12000 "lowest price")
                              10000 market_cleared)) (Task.id task) = Some task /\
    In bid_a (bids_of (snd (create_task (mk_task_data "Wash car" "Inside too" 12000
                                                      "lowest price")
                                        10000 market_cleared)) (Task.id task)) /\
    status_of (fst (evaluate_bids (Task.id task)
                      (snd (create_task (mk_task_data "Wash car" "Inside too" 12000
                                                      "lowest price")
                                        10000 market_cleared)))) <> Some 404.
Proof.
  split; [reflexivity |].
  apply (create_task_adopts_bids market_cleared); [left; reflexivity | reflexivity].
Defined.

(** * The listing *)




(** X16. The listing follows the writes: after [create_task] it is the
    former listing followed by the entry of the task of the reply, whose
    [created_at] is the clock reading; [submit_bid] and [evaluate_bids]
    leave it as it is. *)
Theorem get_tasks_after_requests :
  forall st,
    (forall data now,
       exists task,
         fst (create_task data now st) = Reply (task_created task) 201 /\
         Task.created_at task = now /\
         listed (snd (create_task data now st)) = listed st ++ [task_listed task]) /\
    (forall task_id data now,
       listed (snd (submit_bid task_id data now st)) = listed st) /\
    (forall task_id, listed (snd (evaluate_bids task_id st)) = listed st).
Proof.
  intros st. split; [| split].
  - intros data now. exists (new_task st data now).
    split; [reflexivity |]. split; [reflexivity |].
    rewrite create_task_unfold.
    unfold listed, get_tasks, query_all_tasks, bind, ret. cbn [fst snd task_table].
    apply map_app.
  - intros task_id data now.
    destruct (task_of st task_id) as [task |] eqn:Htask.
    + rewrite (submit_bid_found _ _ _ _ _ Htask). reflexivity.
    + rewrite (submit_bid_not_found _ _ _ _ Htask). reflexivity.
  - intros task_id. rewrite evaluate_bids_unfold. reflexivity.
Qed.

(** X17. After a sweep the listing shows no task that was due: every
    entry listed after a sweep at [now] is the entry of a task that was in
    the table before the sweep and whose deadline is at or after [now]. *)
Theorem get_tasks_after_sweep :
  forall now st e,
    In e (listed (swept now st)) ->
    exists t,
      e = task_listed t /\
      In t (task_table st) /\
      In e (listed st) /\
      now <= Task.deadline t.
Proof.
  intros now st e. unfold listed, get_tasks, query_all_tasks, bind, ret.
  cbn [fst]. intros He. apply in_map_iff in He. destruct He as (t & <- & Ht).
  exists t. split; [reflexivity |].
  pose proof (swept_none_due now st t Ht) as Hopen.
  apply swept_task_table_in in Ht. destruct Ht as [Ht _].
  split; [exact Ht |]. split; [apply in_map, Ht | exact Hopen].
Qed.

Lemma get_tasks_after_sweep_witness :
  exists t,
    task_listed roof = task_listed t /\
    In t (task_table market) /\
    In (task_listed roof) (listed market) /\
    6000 <= Task.deadline t.
Proof.
  apply (get_tasks_after_sweep 6000 market (task_listed roof)).
  left. reflexivity.
Defined.

(** * Where the stored bids come from *)




(** * Time stamps *)

Lemma StronglySorted_le_snoc :
  forall (l : list Z) (x : Z),
    StronglySorted Z.le l -> (forall i, In i l -> i <= x) ->
    StronglySorted Z.le (l ++ [x]).
Proof.
  induction l as [| a l IH]; intros x Hsorted Hbelow; simpl.
  - constructor; constructor.
  - apply StronglySorted_inv in Hsorted. destruct Hsorted as [Hl Ha].
    constructor.
    + apply IH; [exact Hl |]. intros i Hi. apply Hbelow. right. exact Hi.
    + apply Forall_app. split; [exact Ha |].
      constructor; [| constructor]. apply Hbelow. left. reflexivity.
Qed.

Lemma StronglySorted_map_filter :
  forall (A : Type) (f : A -> Z) (p : A -> bool) (l : list A),
    StronglySorted Z.le (map f l) -> StronglySorted Z.le (map f (filter p l)).
Proof.
  intros A f p l. induction l as [| x l IH]; intros H; [exact H |].
  simpl in H. apply StronglySorted_inv in H. destruct H as [Hl Hx].
  simpl. destruct (p x); [| apply IH, Hl].
  simpl. constructor; [apply IH, Hl | apply Forall_map_filter, Hx].
Qed.

Lemma in_map_filter :
  forall (A B : Type) (f : A -> B) (p : A -> bool) (l : list A) (y : B),
    In y (map f (filter p l)) -> In y (map f l).
Proof.
  intros A B f p l y Hin. apply in_map_iff in Hin.
  destruct Hin as (x & Hy & Hx). apply filter_In in Hx.
  apply in_map_iff. exists x. tauto.
Qed.

Lemma stamped_until_handle :
  forall r rest st,
    StronglySorted Z.le (clock_readings (r :: rest)) ->
    stamped_until (clock_readings (r :: rest)) st ->
    StronglySorted Z.le (clock_readings rest) /\
    stamped_until (clock_readings rest) (handle st r).
Proof.
  intros r rest st Hclock (Htasks & Hbids & Hbound).
  unfold stamped_until, stamps in *. cbn [fst snd] in *.
  destruct r as [data now | task_id data now | task_id | now];
    cbn [clock_readings flat_map app] in Hclock, Hbound;
    fold (clock_readings rest) in Hclock, Hbound; cbn [handle].
  - apply StronglySorted_inv in Hclock. destruct Hclock as [Hrest Hnow].
    rewrite Forall_forall in Hnow. split; [exact Hrest |].
    rewrite create_task_unfold. cbn [snd task_table bid_table].
    rewrite map_app. cbn [map new_task Task.created_at].
    split; [| split; [exact Hbids |]].
    + apply StronglySorted_le_snoc; [exact Htasks |].
      intros s Hs. apply (Hbound s now); [apply in_or_app; left; exact Hs |].
      left. reflexivity.
    + intros s c Hs Hc. rewrite <- app_assoc in Hs.
      apply in_app_or in Hs. destruct Hs as [Hs | Hs].
      * apply Hbound; [apply in_or_app; left; exact Hs | right; exact Hc].
      * apply in_app_or in Hs. destruct Hs as [[Hs | []] | Hs].
        -- subst s. apply Hnow, Hc.
        -- apply Hbound; [apply in_or_app; right; exact Hs | right; exact Hc].
  - apply StronglySorted_inv in Hclock. destruct Hclock as [Hrest Hnow].
    rewrite Forall_forall in Hnow. split; [exact Hrest |].
    destruct (task_of st task_id) as [task |] eqn:Htask.
    + rewrite (submit_bid_found _ _ _ _ _ Htask). cbn [snd task_table bid_table].
      rewrite map_app. cbn [map new_bid Bid.submitted_at].
      split; [exact Htasks |]. split.
      * apply StronglySorted_le_snoc; [exact Hbids |].
        intros s Hs. apply (Hbound s now); [apply in_or_app; right; exact Hs |].
        left. reflexivity.
      * intros s c Hs Hc. rewrite app_assoc in Hs.
        apply in_app_or in Hs. destruct Hs as [Hs | [Hs | []]].
        -- apply Hbound; [exact Hs | right; exact Hc].
        -- subst s. apply Hnow, Hc.
    + rewrite (submit_bid_not_found _ _ _ _ Htask).
      split; [exact Htasks |]. split; [exact Hbids |].
      intros s c Hs Hc. apply Hbound; [exact Hs | right; exact Hc].
  - split; [exact Hclock |]. rewrite evaluate_bids_unfold. cbn [snd].
    split; [exact Htasks |]. split; [exact Hbids | exact Hbound].
  - apply StronglySorted_inv in Hclock. destruct Hclock as [Hrest Hnow].
    split; [exact Hrest |].
    rewrite close_expired_tasks_unfold. cbn [snd task_table bid_table].
    split; [apply StronglySorted_map_filter, Htasks |].
    split; [exact Hbids |].
    intros s c Hs Hc. apply Hbound; [| right; exact Hc].
    apply in_app_or in Hs. apply in_or_app.
    destruct Hs as [Hs | Hs]; [left; apply (in_map_filter _ _ _ _ _ _ Hs) | right; exact Hs].
Qed.

(** X19. When the clock never goes back over a history, the time stamps
    follow the tables: in the database reached from the empty one,
    [created_at] does not decrease down the task table nor [submitted_at]
    down the bid table, so the order in which a task's bids are scanned is
    the order in which they were submitted. *)
Theorem stamps_in_order :
  forall history,
    StronglySorted Z.le (clock_readings history) ->
    StronglySorted Z.le (map Task.created_at (task_table (run history empty_db))) /\
    StronglySorted Z.le (map Bid.submitted_at (bid_table (run history empty_db))).
Proof.
  assert (Hrun : forall history st,
             StronglySorted Z.le (clock_readings history) ->
             stamped_until (clock_readings history) st ->
             stamped_until [] (run history st)).
  { induction history as [| r rest IH]; intros st Hclock Hst; [exact Hst |].
    destruct (stamped_until_handle r rest st Hclock Hst) as [Hrest Hnext].
    apply (IH (handle st r) Hrest Hnext). }
  intros history Hclock.
  destruct (Hrun history empty_db Hclock) as (Htasks & Hbids & _).
  { split; [constructor |]. split; [constructor |]. intros s c []. }
  split; assumption.
Qed.

Lemma stamps_in_order_witness :
  StronglySorted Z.le (map Task.created_at (task_table market)) /\
  StronglySorted Z.le (map Bid.submitted_at (bid_table market)).
Proof.
  apply (stamps_in_order market_history). simpl.
  repeat (first [apply SSorted_cons | apply SSorted_nil
                | apply Forall_cons | apply Forall_nil]); lia.
Defined.
